(** * The hello-world-cluster profile (profile.py)

  profile.py is a straight-line script against geni-lib: it asks the
  portal context for a request, attaches a tour, declares one raw PC
  with a block store, and prints the request.  The script is embedded
  as a program over the signature of the geni-lib entry points it
  calls; the library itself is an interpretation of that signature. *)

From Stdlib Require Import String Ascii.
From stdpp Require Import base option list gmap strings.

Local Open Scope string_scope.

(** ** Python objects *)

Module Py.

(** Object identity. *)
Abbreviation loc := positive.

(** The classes the script instantiates, through [portal], [pg] and
    [IG]. *)
Inductive class := CContext | CRequest | CTour | CRawPC | CBlockstore.

(** [IG.Tour.TEXT] and its sibling. *)
Inductive description_type := TEXT | MARKDOWN.

(** The values the script stores in attributes. *)
Inductive value :=
| VNone
| VBool (b : bool)
| VStr (s : string)
| VType (t : description_type)
| VRef (l : loc)
| VRefs (ls : list loc).

(** An instance: its class and its attribute dictionary. *)
Record object := Object { cls : class; attrs : gmap string value }.

(** What ends a run early. *)
Inductive exn :=
| NameError
| AttributeError
| TypeError
| LibraryError (msg : string).

#[global] Instance class_eq_dec : EqDecision class.
Proof. solve_decision. Defined.

#[global] Instance description_type_eq_dec : EqDecision description_type.
Proof. solve_decision. Defined.

#[global] Instance value_eq_dec : EqDecision value.
Proof. solve_decision. Defined.

(** A newline, and a triple-quoted literal given by its physical
    lines: the text after the opening quotes, the lines between, the
    text before the closing quotes. *)
Definition LF : string := String (ascii_of_nat 10) EmptyString.

Definition triple_quoted (lines : list string) : string :=
  String.concat LF lines.

End Py.

Export Py.

(** ** The geni-lib entry points the script uses *)

Module Geni.

(** One constructor per call site shape of profile.py.  Attribute
    assignment [o.attr = v] is a call too: it acts on an object that
    the library owns. *)
Inductive call :=
| portal_Context
| makeRequestRSpec (pc : loc)
| IG_Tour
| Tour_Description (tour : loc) (type : description_type) (desc : string)
| addTour (request tour : loc)
| RawPC (request : loc) (name : string)
| Blockstore (node : loc) (name mount : string)
| setattr (o : loc) (attr : string) (v : value)
| printRequestRSpec (pc request : loc).

(** What a call hands back: a constructor returns the new object, the
    others return [None]. *)
Definition ret (c : call) : Type :=
  match c with
  | portal_Context | makeRequestRSpec _ | IG_Tour
  | RawPC _ _ | Blockstore _ _ _ => loc
  | Tour_Description _ _ _ | addTour _ _
  | setattr _ _ _ | printRequestRSpec _ _ => unit
  end.

#[global] Instance call_eq_dec : EqDecision call.
Proof. solve_decision. Defined.

(** Straight-line programs over the signature. *)
Inductive prog (R : Type) : Type :=
| Ret (r : R)
| Call (c : call) (k : ret c → prog R).
Arguments Ret {R} r.
Arguments Call {R} c k.

Fixpoint bind {A B : Type} (p : prog A) (f : A → prog B) : prog B :=
  match p with
  | Ret a => f a
  | Call c k => Call c (λ x, bind (k x) f)
  end.

(** A single call, as a program. *)
Definition invoke (c : call) : prog (ret c) := Call c Ret.

#[global] Instance prog_ret : MRet prog := @Ret.
#[global] Instance prog_bind : MBind prog := λ A B f p, bind p f.

(** How a run ends: normally with a value, or with the exception
    that nobody caught.  Either way the state reached is kept. *)
Inductive outcome (W R : Type) : Type :=
| Done (r : R) (w : W)
| Fault (e : exn) (w : W).
Arguments Done {W R} r w.
Arguments Fault {W R} e w.

Definition state_of {W R} (o : outcome W R) : W :=
  match o with Done _ w | Fault _ w => w end.

(** A library gives every call a meaning on its state. *)
Definition library (W : Type) : Type := ∀ c : call, W → outcome W (ret c).

Fixpoint run {W R} (lib : library W) (p : prog R) (w : W) : outcome W R :=
  match p with
  | Ret r => Done r w
  | Call c k =>
      match lib c w with
      | Done x w' => run lib (k x) w'
      | Fault e w' => Fault e w'
      end
  end.

(** The calls a run makes, in order, each with the exception it
    raised (if any) and the state it left. *)
Record event (W : Type) : Type :=
  Event { ev_call : call; ev_exn : option exn; ev_state : W }.
Arguments Event {W} ev_call ev_exn ev_state.
Arguments ev_call {W} e.
Arguments ev_exn {W} e.
Arguments ev_state {W} e.

Fixpoint trace {W R} (lib : library W) (p : prog R) (w : W) : list (event W) :=
  match p with
  | Ret _ => []
  | Call c k =>
      match lib c w with
      | Done x w' => Event c None w' :: trace lib (k x) w'
      | Fault e w' => [Event c (Some e) w']
      end
  end.

Definition calls {W} (t : list (event W)) : list call := ev_call <$> t.

(** Calls by what they do. *)
Definition adds_node (c : call) : bool :=
  match c with RawPC _ _ => true | _ => false end.

Definition adds_blockstore (c : call) : bool :=
  match c with Blockstore _ _ _ => true | _ => false end.

Definition prints (c : call) : bool :=
  match c with printRequestRSpec _ _ => true | _ => false end.

(** The object a call returned, when it returns one. *)
Definition handle (c : call) : ret c → option loc :=
  match c return ret c → option loc with
  | portal_Context | makeRequestRSpec _ | IG_Tour
  | RawPC _ _ | Blockstore _ _ _ => Some
  | Tour_Description _ _ _ | addTour _ _
  | setattr _ _ _ | printRequestRSpec _ _ => λ _, None
  end.

(** The calls of a run, each with the object it returned. *)
Fixpoint log {W R} (lib : library W) (p : prog R) (w : W)
    : list (call * option loc) :=
  match p with
  | Ret _ => []
  | Call c k =>
      match lib c w with
      | Done x w' => (c, handle c x) :: log lib (k x) w'
      | Fault _ _ => [(c, None)]
      end
  end.

(** Exit status of the interpreter. *)
Definition exit_status {W R} (o : outcome W R) : nat :=
  match o with Done _ _ => 0 | Fault _ _ => 1 end.

End Geni.

Export Geni.

(** ** geni-lib *)

Module Lib.

(** Modelled from the spec: the request document that the serializer
    of geni-lib (not part of this repository) renders.  A request holds
    a tour description and an ordered collection of node declarations;
    a node has a symbolic name, a hardware type, a disk image, the
    routable-control-IP flag and its block stores; a block store has a
    symbolic name, a mount path and a size.  The textual schema belongs
    to the library, so a document is kept as its abstract syntax. *)
Record BlockstoreDoc := BlockstoreD
  { bd_name : string; bd_mount : string; bd_size : option string }.

Record NodeDoc := NodeD
  { nd_name : string;
    nd_hardware_type : option string;
    nd_disk_image : option string;
    nd_routable_control_ip : bool;
    nd_blockstores : list BlockstoreDoc }.

Record TourDoc := TourD { td_type : description_type; td_text : string }.

Record RequestDoc := RequestD
  { rd_tour : option TourDoc; rd_nodes : list NodeDoc }.

(** Modelled from the spec: the process as a script can touch it.  The
    objects live in memory; the output is what was written to standard
    output; arguments, environment, files and network are the
    surroundings the spec says the script neither reads nor writes. *)
Record world := World
  { heap : gmap loc object;
    stdout : list RequestDoc;
    argv : list string;
    environ : gmap string string;
    files : gmap string string;
    network : list string }.

(** What a process is given from outside. *)
Definition external (w : world)
    : list string * gmap string string * gmap string string * list string :=
  (argv w, environ w, files w, network w).

(** The library has not handed out a portal context yet. *)
Definition no_context (w : world) : Prop :=
  map_Forall (λ _ o, cls o ≠ CContext) (heap w).

Definition with_heap (h : gmap loc object) (w : world) : world :=
  World h (stdout w) (argv w) (environ w) (files w) (network w).

Definition with_stdout (out : list RequestDoc) (w : world) : world :=
  World (heap w) out (argv w) (environ w) (files w) (network w).

(** Attribute access [o.a] through the heap. *)
Definition getattr (h : gmap loc object) (l : loc) (a : string) : option value :=
  o ← h !! l; attrs o !! a.

Definition class_of (h : gmap loc object) (l : loc) : option class :=
  cls <$> h !! l.

Definition get_str (h : gmap loc object) (l : loc) (a : string) : option string :=
  match getattr h l a with Some (VStr s) => Some s | _ => None end.

Definition get_opt_str (h : gmap loc object) (l : loc) (a : string)
    : option (option string) :=
  match getattr h l a with
  | Some (VStr s) => Some (Some s)
  | Some VNone => Some None
  | _ => None
  end.

Definition get_bool (h : gmap loc object) (l : loc) (a : string) : option bool :=
  match getattr h l a with Some (VBool b) => Some b | _ => None end.

Definition get_refs (h : gmap loc object) (l : loc) (a : string)
    : option (list loc) :=
  match getattr h l a with Some (VRefs ls) => Some ls | _ => None end.

(** Modelled from the spec: the serializer of geni-lib, up to the
    textual rendering.  The document of a request is read off the
    objects reachable from it; an object of the wrong class or with an
    attribute of the wrong type has no document. *)
Definition snapshot_blockstore (h : gmap loc object) (l : loc)
    : option BlockstoreDoc :=
  c ← class_of h l;
  if decide (c = CBlockstore) then
    name ← get_str h l "name";
    mount ← get_str h l "mount";
    size ← get_opt_str h l "size";
    Some (BlockstoreD name mount size)
  else None.

Definition snapshot_node (h : gmap loc object) (l : loc) : option NodeDoc :=
  c ← class_of h l;
  if decide (c = CRawPC) then
    name ← get_str h l "name";
    hw ← get_opt_str h l "hardware_type";
    img ← get_opt_str h l "disk_image";
    ip ← get_bool h l "routable_control_ip";
    bss ← get_refs h l "blockstores";
    bds ← mapM (snapshot_blockstore h) bss;
    Some (NodeD name hw img ip bds)
  else None.

Definition snapshot_tour (h : gmap loc object) (v : value)
    : option (option TourDoc) :=
  match v with
  | VNone => Some None
  | VRef l =>
      c ← class_of h l;
      if decide (c = CTour) then
        match getattr h l "description_type", getattr h l "description" with
        | Some (VType t), Some (VStr s) => Some (Some (TourD t s))
        | Some VNone, Some VNone => Some None
        | _, _ => None
        end
      else None
  | _ => None
  end.

Definition snapshot_request (h : gmap loc object) (l : loc) : option RequestDoc :=
  c ← class_of h l;
  if decide (c = CRequest) then
    tv ← getattr h l "tour";
    tour ← snapshot_tour h tv;
    ns ← get_refs h l "resources";
    nds ← mapM (snapshot_node h) ns;
    Some (RequestD tour nds)
  else None.

(** Modelled from the spec: the building blocks of the methods of
    geni-lib.  A constructor allocates an object nobody holds yet; a
    method looks up its receiver and checks its class. *)
Definition new (o : object) (w : world) : outcome world loc :=
  let l := fresh (dom (heap w)) in
  Done l (with_heap (<[l := o]> (heap w)) w).

Definition method {A} (c : class) (self : loc) (w : world)
    (body : object → outcome world A) : outcome world A :=
  match heap w !! self with
  | None => Fault NameError w
  | Some o => if decide (cls o = c) then body o else Fault AttributeError w
  end.

Definition store (l : loc) (o : object) (a : string) (v : value)
    (w : world) : world :=
  with_heap (<[l := Object (cls o) (<[a := v]> (attrs o))]> (heap w)) w.

(** [self.a.append(x)] for a list-valued attribute. *)
Definition append_ref (self : loc) (a : string) (x : loc) (w : world)
    : outcome world loc :=
  match heap w !! self with
  | Some o =>
      match attrs o !! a with
      | Some (VRefs ls) => Done x (store self o a (VRefs (ls ++ [x])) w)
      | _ => Fault TypeError w
      end
  | None => Fault NameError w
  end.

(** Modelled from the spec: the entry points of geni-lib (not part of
    this repository) that profile.py calls.  [makeRequestRSpec] creates
    an empty request; [Description] stores the text in the tour and
    [addTour] attaches the tour to the request; [RawPC] creates a node
    with the given symbolic name and adds it to the request;
    [Blockstore] creates a block store with the given name and mount
    path and attaches it to the node; an attribute assignment stores
    the value in the object; [printRequestRSpec] renders the request
    and writes the document to standard output.  Attributes that the
    caller has not given start unset ([None], the flag off). *)
Definition geni_lib : library world :=
  λ c,
    match c return world → outcome world (ret c) with
    | portal_Context =>
        new (Object CContext ∅)
    | makeRequestRSpec pc => λ w,
        method CContext pc w (λ _,
          new (Object CRequest
                 (<["tour" := VNone]> (<["resources" := VRefs []]> ∅))) w)
    | IG_Tour =>
        new (Object CTour
               (<["description_type" := VNone]> (<["description" := VNone]> ∅)))
    | Tour_Description tour type desc => λ w,
        method CTour tour w (λ o,
          Done tt
            (with_heap
               (<[tour := Object CTour
                            (<["description_type" := VType type]>
                               (<["description" := VStr desc]> (attrs o)))]>
                  (heap w)) w))
    | addTour request tour => λ w,
        method CRequest request w (λ o,
          Done tt (store request o "tour" (VRef tour) w))
    | RawPC request name => λ w,
        method CRequest request w (λ _,
          match new (Object CRawPC
                       (<["name" := VStr name]>
                          (<["hardware_type" := VNone]>
                             (<["disk_image" := VNone]>
                                (<["routable_control_ip" := VBool false]>
                                   (<["blockstores" := VRefs []]> ∅)))))) w with
          | Done node w' => append_ref request "resources" node w'
          | Fault e w' => Fault e w'
          end)
    | Blockstore node name mount => λ w,
        method CRawPC node w (λ _,
          match new (Object CBlockstore
                       (<["name" := VStr name]>
                          (<["mount" := VStr mount]>
                             (<["size" := VNone]> ∅)))) w with
          | Done bs w' => append_ref node "blockstores" bs w'
          | Fault e w' => Fault e w'
          end)
    | setattr o attr v => λ w,
        match heap w !! o with
        | Some ob => Done tt (store o ob attr v w)
        | None => Fault NameError w
        end
    | printRequestRSpec pc request => λ w,
        method CContext pc w (λ _,
          match snapshot_request (heap w) request with
          | Some doc => Done tt (with_stdout (stdout w ++ [doc]) w)
          | None => Fault TypeError w
          end)
    end.

(** geni-lib out of order: every call raises. *)
Definition unavailable : library unit :=
  λ c w, Fault (LibraryError "geni") w.

(** geni-lib refusing some calls: a call singled out by [bad] raises
    instead of taking effect. *)
Definition rejecting (bad : call → bool) : library world :=
  λ c w, if bad c then Fault (LibraryError "rejected") w else geni_lib c w.

Definition assigns (a : string) (c : call) : bool :=
  match c with
  | setattr _ a' _ => bool_decide (a' = a)
  | _ => false
  end.

(** geni-lib refusing every disk image. *)
Definition strict_lib : library world := rejecting (assigns "disk_image").

End Lib.

Export Lib.

(** ** profile.py *)

Module Script.

(** The names the module has bound when it ends. *)
Record globals := Globals
  { pc : loc; request : loc; tour : loc; node : loc; bs : loc }.

Definition tourDescription : string :=
  triple_quoted [""; "Example profile for the hello-world-cluster"; ""].

(** The module body, statement by statement.  A module has no result
    of its own; the embedding returns its bindings so that statements
    about the run can name them. *)
Definition profile : prog globals :=
  (* Define profile parameters *)
  pc ← invoke portal_Context;
  request ← invoke (makeRequestRSpec pc);
  tour ← invoke IG_Tour;
  invoke (Tour_Description tour TEXT tourDescription);;
  invoke (addTour request tour);;
  (* Define node *)
  node ← invoke (RawPC request "deploy-node");
  invoke (setattr node "hardware_type" (VStr "d430"));;
  invoke (setattr node "disk_image"
        (VStr "urn:publicid:IDN+emulab.net+image+emulab-ops:UBUNTU22-64-STD"));;
  invoke (setattr node "routable_control_ip" (VBool true));;
  bs ← invoke (Blockstore node "bs" "/mydata");
  invoke (setattr bs "size" (VStr "20GB"));;
  (* Print request *)
  invoke (printRequestRSpec pc request);;
  mret (Globals pc request tour node bs).

(** The calls of the script, given the objects it got back. *)
Definition script (g : globals) : list call :=
  [ portal_Context;
    makeRequestRSpec (pc g);
    IG_Tour;
    Tour_Description (tour g) TEXT tourDescription;
    addTour (request g) (tour g);
    RawPC (request g) "deploy-node";
    setattr (node g) "hardware_type" (VStr "d430");
    setattr (node g) "disk_image"
      (VStr "urn:publicid:IDN+emulab.net+image+emulab-ops:UBUNTU22-64-STD");
    setattr (node g) "routable_control_ip" (VBool true);
    Blockstore (node g) "bs" "/mydata";
    setattr (bs g) "size" (VStr "20GB");
    printRequestRSpec (pc g) (request g) ].

(** The calls of the script, each with the object it is answered with. *)
Definition script_log (g : globals) : list (call * option loc) :=
  zip (script g)
    [ Some (pc g); Some (request g); Some (tour g); None; None;
      Some (node g); None; None; None; Some (bs g); None; None ].

(** The document the profile describes. *)
Definition profile_doc : RequestDoc :=
  RequestD
    (Some (TourD TEXT tourDescription))
    [ NodeD "deploy-node" (Some "d430")
        (Some "urn:publicid:IDN+emulab.net+image+emulab-ops:UBUNTU22-64-STD")
        true
        [ BlockstoreD "bs" "/mydata" (Some "20GB") ] ].

(** The objects the script leaves behind, and the heap holding them. *)
Definition context_obj : object := Object CContext ∅.

Definition request_obj (g : globals) : object :=
  Object CRequest
    (<["tour" := VRef (tour g)]> (<["resources" := VRefs [node g]]> ∅)).

Definition tour_obj : object :=
  Object CTour
    (<["description_type" := VType TEXT]>
       (<["description" := VStr tourDescription]> ∅)).

Definition node_obj (g : globals) : object :=
  Object CRawPC
    (<["name" := VStr "deploy-node"]>
       (<["hardware_type" := VStr "d430"]>
          (<["disk_image" :=
               VStr "urn:publicid:IDN+emulab.net+image+emulab-ops:UBUNTU22-64-STD"]>
             (<["routable_control_ip" := VBool true]>
                (<["blockstores" := VRefs [bs g]]> ∅))))).

Definition bs_obj : object :=
  Object CBlockstore
    (<["name" := VStr "bs"]>
       (<["mount" := VStr "/mydata"]> (<["size" := VStr "20GB"]> ∅))).

Definition final_heap (g : globals) (h : gmap loc object) : gmap loc object :=
  <[bs g := bs_obj]>
    (<[node g := node_obj g]>
       (<[tour g := tour_obj]>
          (<[request g := request_obj g]> (<[pc g := context_obj]> h)))).

(** The objects a run allocates, in the order of the script. *)
Definition allocated (g : globals) : list loc :=
  [pc g; request g; tour g; node g; bs g].

(** The process after the script, started from [w]. *)
Definition final_world (g : globals) (w : world) : world :=
  with_stdout (stdout w ++ [profile_doc]) (with_heap (final_heap g (heap w)) w).

(** What a run wrote to standard output, given what was there before. *)
Definition written (before after : world) : list RequestDoc :=
  drop (length (stdout before)) (stdout after).

(** A process started with nothing in it. *)
Definition boot : world := World ∅ [] [] ∅ ∅ [].

(** A process that has used the library's classes on its own before the
    script starts, and has written a document already: a tour and a raw
    PC sit in memory, no portal context does. *)
Definition busy : world :=
  World
    (<[1%positive := Object CTour (<["description" := VStr "old"]> ∅)]>
       (<[3%positive := Object CRawPC (<["name" := VStr "spare"]> ∅)]> ∅))
    [RequestD None []] [] ∅ ∅ [].

End Script.

Export Script.

(** * Verification *)

(** ** Allocation and the heap *)

Section Heap.

Implicit Types (h : gmap loc object) (w : world) (l : loc) (o : object).

Lemma fresh_heap h : h !! fresh (dom h) = None.
Proof. apply not_elem_of_dom, is_fresh. Qed.

Lemma fresh_ne h l o : h !! l = Some o → l ≠ fresh (dom h).
Proof. intros Hl ->. rewrite fresh_heap in Hl. discriminate. Qed.

Lemma lib_portal_Context w :
  geni_lib portal_Context w =
    Done (fresh (dom (heap w)))
      (with_heap (<[fresh (dom (heap w)) := Object CContext ∅]> (heap w)) w).
Proof. reflexivity. Qed.

Lemma lib_makeRequestRSpec w pc a :
  heap w !! pc = Some (Object CContext a) →
  geni_lib (makeRequestRSpec pc) w =
    Done (fresh (dom (heap w)))
      (with_heap
         (<[fresh (dom (heap w)) :=
              Object CRequest
                (<["tour" := VNone]> (<["resources" := VRefs []]> ∅))]>
            (heap w)) w).
Proof. intros H. cbn. unfold method. rewrite H. reflexivity. Qed.

Lemma lib_IG_Tour w :
  geni_lib IG_Tour w =
    Done (fresh (dom (heap w)))
      (with_heap
         (<[fresh (dom (heap w)) :=
              Object CTour
                (<["description_type" := VNone]>
                   (<["description" := VNone]> ∅))]>
            (heap w)) w).
Proof. reflexivity. Qed.

Lemma lib_Tour_Description w t ty desc a :
  heap w !! t = Some (Object CTour a) →
  geni_lib (Tour_Description t ty desc) w =
    Done tt
      (with_heap
         (<[t := Object CTour
                   (<["description_type" := VType ty]>
                      (<["description" := VStr desc]> a))]>
            (heap w)) w).
Proof. intros H. cbn. unfold method. rewrite H. reflexivity. Qed.

Lemma lib_addTour w r t a :
  heap w !! r = Some (Object CRequest a) →
  geni_lib (addTour r t) w =
    Done tt
      (with_heap
         (<[r := Object CRequest (<["tour" := VRef t]> a)]> (heap w)) w).
Proof. intros H. cbn. unfold method. rewrite H. reflexivity. Qed.

Lemma lib_setattr w l o a v :
  heap w !! l = Some o →
  geni_lib (setattr l a v) w =
    Done tt
      (with_heap (<[l := Object (cls o) (<[a := v]> (attrs o))]> (heap w)) w).
Proof. intros H. cbn. rewrite H. reflexivity. Qed.

Lemma lib_RawPC w r name a ls :
  heap w !! r = Some (Object CRequest a) →
  a !! "resources" = Some (VRefs ls) →
  geni_lib (RawPC r name) w =
    let n := fresh (dom (heap w)) in
    Done n
      (with_heap
         (<[r := Object CRequest (<["resources" := VRefs (ls ++ [n])]> a)]>
            (<[n := Object CRawPC
                      (<["name" := VStr name]>
                         (<["hardware_type" := VNone]>
                            (<["disk_image" := VNone]>
                               (<["routable_control_ip" := VBool false]>
                                  (<["blockstores" := VRefs []]> ∅)))))]>
               (heap w))) w).
Proof.
  intros H Ha. cbn. unfold method. rewrite H. cbn.
  unfold append_ref, new. cbn.
  rewrite lookup_insert_ne by (symmetry; eapply fresh_ne, H).
  rewrite H. cbn. rewrite Ha. reflexivity.
Qed.

Lemma lib_Blockstore w n name mount a ls :
  heap w !! n = Some (Object CRawPC a) →
  a !! "blockstores" = Some (VRefs ls) →
  geni_lib (Blockstore n name mount) w =
    let b := fresh (dom (heap w)) in
    Done b
      (with_heap
         (<[n := Object CRawPC (<["blockstores" := VRefs (ls ++ [b])]> a)]>
            (<[b := Object CBlockstore
                      (<["name" := VStr name]>
                         (<["mount" := VStr mount]>
                            (<["size" := VNone]> ∅)))]>
               (heap w))) w).
Proof.
  intros H Ha. cbn. unfold method. rewrite H. cbn.
  unfold append_ref, new. cbn.
  rewrite lookup_insert_ne by (symmetry; eapply fresh_ne, H).
  rewrite H. cbn. rewrite Ha. reflexivity.
Qed.

Lemma lib_printRequestRSpec w p r a doc :
  heap w !! p = Some (Object CContext a) →
  snapshot_request (heap w) r = Some doc →
  geni_lib (printRequestRSpec p r) w =
    Done tt (with_stdout (stdout w ++ [doc]) w).
Proof. intros H Hs. cbn. unfold method. rewrite H. cbn. rewrite Hs. reflexivity. Qed.

End Heap.

(** ** The run of the profile on geni-lib *)

Section Run.

Implicit Types (h : gmap loc object) (w : world) (l : loc) (g : globals).

Lemma allocated_distinct g :
  NoDup (allocated g) →
  pc g ≠ request g ∧ pc g ≠ tour g ∧ pc g ≠ node g ∧ pc g ≠ bs g
  ∧ request g ≠ tour g ∧ request g ≠ node g ∧ request g ≠ bs g
  ∧ tour g ≠ node g ∧ tour g ≠ bs g ∧ node g ≠ bs g.
Proof.
  unfold allocated. rewrite !NoDup_cons, !not_elem_of_cons. tauto.
Qed.

Lemma snapshot_final g h :
  NoDup (allocated g) →
  snapshot_request (final_heap g h) (request g) = Some profile_doc.
Proof.
  intros Hd. apply allocated_distinct in Hd.
  destruct Hd as (?&?&?&?&?&?&?&?&?&?).
  unfold snapshot_request, snapshot_tour, snapshot_node, snapshot_blockstore,
    get_refs, get_str, get_opt_str, get_bool, getattr, class_of, final_heap.
  simplify_map_eq. reflexivity.
Qed.

Lemma with_heap_twice h h' w : with_heap h (with_heap h' w) = with_heap h w.
Proof. reflexivity. Qed.

Ltac norm :=
  rewrite ?with_heap_twice; cbn [heap stdout argv environ files network with_heap cls attrs].

Tactic Notation "name_fresh" ident(l) ident(H) :=
  match goal with
  | |- context [fresh (dom ?m)] =>
      pose proof (fresh_heap m) as H; set (l := fresh (dom m)) in *; clearbody l;
      rewrite ?lookup_insert_None in H
  end.

Lemma profile_run w :
  match run geni_lib profile w with
  | Done g w' =>
      NoDup (allocated g)
      ∧ Forall (λ l, heap w !! l = None) (allocated g)
      ∧ w' = final_world g w
  | Fault _ _ => False
  end.
Proof.
  cbv [profile mbind prog_bind bind invoke mret prog_ret]. cbn [run].
  (* pc = portal.Context() *)
  rewrite lib_portal_Context. norm. name_fresh pc Hpc.
  (* request = pc.makeRequestRSpec() *)
  rewrite (lib_makeRequestRSpec _ _ ∅) by (norm; apply lookup_insert_eq).
  norm. name_fresh r Hr. destruct Hr as [Hr Hpr].
  (* tour = IG.Tour() *)
  rewrite lib_IG_Tour. norm. name_fresh t Ht. destruct Ht as [[Ht Hpt] Hrt].
  (* tour.Description(IG.Tour.TEXT, tourDescription) *)
  erewrite lib_Tour_Description by (norm; apply lookup_insert_eq). norm.
  (* request.addTour(tour) *)
  erewrite lib_addTour by (norm; simplify_map_eq; reflexivity). norm.
  (* node = request.RawPC("deploy-node") *)
  erewrite lib_RawPC by (norm; simplify_map_eq; reflexivity).
  cbv zeta. norm. name_fresh n Hn.
  destruct Hn as [[[[[Hn Hpn] Hrn] Htn] _] _].
  (* node.hardware_type, node.disk_image, node.routable_control_ip *)
  do 3 (erewrite lib_setattr by (norm; simplify_map_eq; reflexivity); norm).
  (* bs = node.Blockstore("bs", "/mydata") *)
  erewrite lib_Blockstore by (norm; simplify_map_eq; reflexivity).
  cbv zeta. norm. name_fresh b Hb.
  destruct Hb as [[[[[[[[[[Hb Hpb] Hrb] Htb] _] _] Hnb] _] _] _] _].
  (* bs.size = "20GB" *)
  erewrite lib_setattr by (norm; simplify_map_eq; reflexivity). norm.
  (* pc.printRequestRSpec(request) *)
  assert (Hd : NoDup (allocated (Globals pc r t n b))).
  { unfold allocated. cbn. rewrite !NoDup_cons, !not_elem_of_cons.
    repeat split; try apply NoDup_nil_2; try apply not_elem_of_nil; tauto. }
  match goal with
  | |- context [with_heap ?m w] =>
      assert (E : m = final_heap (Globals pc r t n b) (heap w))
  end.
  { apply map_eq. intros l. unfold final_heap. cbn.
    destruct (decide (l = b)) as [->|]; [simplify_map_eq; reflexivity|].
    destruct (decide (l = n)) as [->|]; [simplify_map_eq; reflexivity|].
    destruct (decide (l = t)) as [->|]; [simplify_map_eq; reflexivity|].
    destruct (decide (l = r)) as [->|]; [simplify_map_eq; reflexivity|].
    destruct (decide (l = pc)) as [->|]; [simplify_map_eq; reflexivity|].
    simplify_map_eq. reflexivity. }
  rewrite E.
  erewrite lib_printRequestRSpec;
    [ | norm; unfold final_heap; cbn; simplify_map_eq; reflexivity
      | norm; apply (snapshot_final (Globals pc r t n b)), Hd ].
  split; [exact Hd|]. split; [|reflexivity].
  unfold allocated. cbn. repeat constructor; assumption.
Qed.

End Run.

(** ** Any library *)

Section AnyLibrary.

Context {W : Type}.

Implicit Types (lib : library W) (w : W) (e : exn).

Lemma fault_ends_run {R} lib (p : prog R) w pre ev post e :
  trace lib p w = (pre ++ ev :: post)%list →
  ev_exn ev = Some e →
  post = [] ∧ run lib p w = Fault e (ev_state ev).
Proof.
  revert w pre. induction p as [r|c k IH]; intros w pre Ht He; cbn in *.
  - destruct pre; discriminate.
  - destruct (lib c w) as [x w'|e' w'].
    + destruct pre as [|a pre]; cbn in Ht; injection Ht as Hev Ht.
      * subst ev. discriminate.
      * eapply IH; eassumption.
    + destruct pre as [|a pre]; cbn in Ht; injection Ht as Hev Ht.
      * subst ev post. cbn in He. injection He as ->. done.
      * destruct pre; discriminate.
Qed.

Lemma done_no_fault {R} lib (p : prog R) w r w' :
  run lib p w = Done r w' →
  Forall (λ ev, ev_exn ev = None) (trace lib p w).
Proof.
  revert w. induction p as [r0|c k IH]; intros w Hr; cbn in *.
  - constructor.
  - destruct (lib c w) as [x w1|e w1]; [|discriminate].
    constructor; [reflexivity|]. eapply IH, Hr.
Qed.

Lemma last_state {R} lib (p : prog R) w ev :
  last (trace lib p w) = Some ev →
  ev_state ev = state_of (run lib p w).
Proof.
  revert w. induction p as [r0|c k IH]; intros w Hl; cbn in *.
  - discriminate.
  - destruct (lib c w) as [x w1|e w1].
    + destruct (trace lib (k x) w1) as [|a t] eqn:Ht.
      * cbn in Hl. injection Hl as <-. cbn.
        destruct (k x); cbn in *; [reflexivity|].
        destruct (lib c0 w1); discriminate.
      * apply IH. rewrite Ht. exact Hl.
    + cbn in Hl. injection Hl as <-. reflexivity.
Qed.

End AnyLibrary.

(** ** The shape of the script *)

Section Shape.

Context {W : Type}.

Lemma script_shape (lib : library W) (w : W) :
  match run lib profile w with
  | Done g w' =>
      calls (trace lib profile w) = script g
      ∧ last (trace lib profile w)
        = Some (Event (printRequestRSpec (pc g) (request g)) None w')
  | Fault e w' =>
      ∃ g, calls (trace lib profile w) `prefix_of` script g
  end.
Proof.
  cbv [profile mbind prog_bind bind invoke mret prog_ret]. cbn [run trace].
  repeat
    match goal with
    | |- context [lib ?c ?s] => destruct (lib c s) as [? ?|? ?]
    end;
    try (split; reflexivity);
    eexists (Globals _ _ _ _ _); eexists; cbn; reflexivity.
  Unshelve. all: exact 1%positive.
Qed.

End Shape.

(** ** The objects the run leaves *)

Section Final.

Implicit Types (h : gmap loc object) (w : world) (l : loc) (g : globals).

Lemma profile_result w :
  ∃ g, run geni_lib profile w = Done g (final_world g w)
       ∧ NoDup (allocated g)
       ∧ Forall (λ l, heap w !! l = None) (allocated g).
Proof.
  pose proof (profile_run w) as H.
  destruct (run geni_lib profile w) as [g w'|]; [|contradiction].
  destruct H as (Hd & Hf & ->). exists g. auto.
Qed.

Lemma final_heap_objects g h :
  NoDup (allocated g) →
  final_heap g h !! pc g = Some context_obj
  ∧ final_heap g h !! request g = Some (request_obj g)
  ∧ final_heap g h !! tour g = Some tour_obj
  ∧ final_heap g h !! node g = Some (node_obj g)
  ∧ final_heap g h !! bs g = Some bs_obj.
Proof.
  intros Hd. apply allocated_distinct in Hd.
  destruct Hd as (?&?&?&?&?&?&?&?&?&?).
  unfold final_heap. repeat split; simplify_map_eq; reflexivity.
Qed.

Lemma final_heap_frame g h l :
  l ∉ allocated g → final_heap g h !! l = h !! l.
Proof.
  unfold allocated. rewrite !not_elem_of_cons. intros (?&?&?&?&?&_).
  unfold final_heap. simplify_map_eq. reflexivity.
Qed.

Lemma written_final g w : written w (final_world g w) = [profile_doc].
Proof.
  unfold written, final_world. cbn. apply drop_app_length.
Qed.

End Final.

(** * The claims *)

Section Claims.

Implicit Types (h : gmap loc object) (w : world) (l : loc) (g : globals).

Ltac run_profile w g Hrun Hd Hf :=
  destruct (profile_result w) as (g & Hrun & Hd & Hf);
  pose proof (script_shape geni_lib w) as Hshape;
  rewrite Hrun in Hshape;
  destruct Hshape as [Hcalls Hlast];
  destruct (final_heap_objects g (heap w) Hd) as (Hpc & Hrq & Htr & Hnd & Hbs).

Ltac read_attr H :=
  unfold get_refs, get_str, get_opt_str, get_bool, getattr, class_of;
  cbn [heap final_world with_heap with_stdout]; rewrite H; reflexivity.

(** Among the objects of a finished run, only [node g] is a node that
    the run made. *)
Lemma other_nodes_untouched g h l :
  NoDup (allocated g) →
  class_of (final_heap g h) l = Some CRawPC → l ≠ node g →
  final_heap g h !! l = h !! l.
Proof.
  intros Hd Hc Hne.
  destruct (final_heap_objects g h Hd) as (Hpc & Hrq & Htr & Hnd & Hbs).
  apply final_heap_frame. unfold allocated. rewrite !not_elem_of_cons.
  unfold class_of in Hc.
  repeat split; try apply not_elem_of_nil; try assumption;
    intros ->;
    match goal with
    | H : final_heap _ _ !! ?x = Some _, Hc : context [final_heap _ _ !! ?x] |- _ =>
        rewrite H in Hc; discriminate
    end.
Qed.

(** C1: running the script adds exactly one node to the request; its
    symbolic name is "deploy-node", its hardware type "d430" and its disk
    image the fixed URN.  The run makes one [RawPC] call, every other
    node object in memory is left as it was, and the document written
    declares that single node. *)
Theorem one_node_added w :
  ∃ g w',
    run geni_lib profile w = Done g w'
    ∧ get_refs (heap w') (request g) "resources" = Some [node g]
    ∧ class_of (heap w') (node g) = Some CRawPC
    ∧ getattr (heap w') (node g) "name" = Some (VStr "deploy-node")
    ∧ getattr (heap w') (node g) "hardware_type" = Some (VStr "d430")
    ∧ getattr (heap w') (node g) "disk_image"
      = Some (VStr "urn:publicid:IDN+emulab.net+image+emulab-ops:UBUNTU22-64-STD")
    ∧ List.filter adds_node (calls (trace geni_lib profile w))
      = [RawPC (request g) "deploy-node"]
    ∧ (∀ l, class_of (heap w') l = Some CRawPC → l ≠ node g →
            heap w' !! l = heap w !! l)
    ∧ ∃ nd, rd_nodes <$> written w w' = [[nd]]
            ∧ nd_name nd = "deploy-node"
            ∧ nd_hardware_type nd = Some "d430"
            ∧ nd_disk_image nd
              = Some "urn:publicid:IDN+emulab.net+image+emulab-ops:UBUNTU22-64-STD".
Proof.
  run_profile w g Hrun Hd Hf.
  exists g, (final_world g w). split; [exact Hrun|].
  repeat split; try read_attr Hrq; try read_attr Hnd.
  - rewrite Hcalls. reflexivity.
  - intros l. apply other_nodes_untouched, Hd.
  - eexists. rewrite written_final. cbn. repeat split; reflexivity.
Qed.

(** C2: the single node of the request has [routable_control_ip] set to
    true, in memory and in the document written (the library creates
    nodes with the flag off). *)
Theorem node_routable_control_ip w :
  ∃ g w',
    run geni_lib profile w = Done g w'
    ∧ get_refs (heap w') (request g) "resources" = Some [node g]
    ∧ getattr (heap w') (node g) "routable_control_ip" = Some (VBool true)
    ∧ (λ d, nd_routable_control_ip <$> rd_nodes d) <$> written w w' = [[true]].
Proof.
  run_profile w g Hrun Hd Hf.
  exists g, (final_world g w). split; [exact Hrun|].
  repeat split; try read_attr Hrq; try read_attr Hnd.
  rewrite written_final. reflexivity.
Qed.

(** C3: the node has exactly one block store, named "bs", mounted at
    "/mydata", of size "20GB".  It hangs off the node made by the
    [RawPC] call: the only [Blockstore] call is on that node, the
    request lists the node alone, and no other node object is touched. *)
Theorem one_blockstore_attached w :
  ∃ g w',
    run geni_lib profile w = Done g w'
    ∧ get_refs (heap w') (node g) "blockstores" = Some [bs g]
    ∧ class_of (heap w') (bs g) = Some CBlockstore
    ∧ getattr (heap w') (bs g) "name" = Some (VStr "bs")
    ∧ getattr (heap w') (bs g) "mount" = Some (VStr "/mydata")
    ∧ getattr (heap w') (bs g) "size" = Some (VStr "20GB")
    ∧ get_refs (heap w') (request g) "resources" = Some [node g]
    ∧ bs g ≠ node g
    ∧ heap w !! bs g = None
    ∧ List.filter adds_blockstore (calls (trace geni_lib profile w))
      = [Blockstore (node g) "bs" "/mydata"]
    ∧ List.filter adds_node (calls (trace geni_lib profile w))
      = [RawPC (request g) "deploy-node"]
    ∧ (∀ l, class_of (heap w') l = Some CRawPC → l ≠ node g →
            heap w' !! l = heap w !! l)
    ∧ (λ d, nd_blockstores <$> rd_nodes d) <$> written w w'
      = [[[BlockstoreD "bs" "/mydata" (Some "20GB")]]].
Proof.
  run_profile w g Hrun Hd Hf.
  exists g, (final_world g w). split; [exact Hrun|].
  repeat split; try read_attr Hrq; try read_attr Hnd; try read_attr Hbs.
  - apply allocated_distinct in Hd. intros E. symmetry in E. tauto.
  - unfold allocated in Hf. rewrite !Forall_cons in Hf. tauto.
  - rewrite Hcalls. reflexivity.
  - rewrite Hcalls. reflexivity.
  - intros l. apply other_nodes_untouched, Hd.
  - rewrite written_final. reflexivity.
Qed.

(** C4: the tour attached to the request carries the script's
    [tourDescription], character for character, as a TEXT description,
    in memory and in the document written. *)
Theorem tour_description_verbatim w :
  ∃ g w',
    run geni_lib profile w = Done g w'
    ∧ getattr (heap w') (request g) "tour" = Some (VRef (tour g))
    ∧ class_of (heap w') (tour g) = Some CTour
    ∧ getattr (heap w') (tour g) "description" = Some (VStr tourDescription)
    ∧ getattr (heap w') (tour g) "description_type" = Some (VType TEXT)
    ∧ rd_tour <$> written w w' = [Some (TourD TEXT tourDescription)].
Proof.
  run_profile w g Hrun Hd Hf.
  exists g, (final_world g w). split; [exact Hrun|].
  repeat split; try read_attr Hrq; try read_attr Htr.
  rewrite written_final. reflexivity.
Qed.

(** C5: the output is deterministic.  Two invocations that are given
    the same arguments, environment, files and network write the same
    document and exit alike, whatever else differs between the two
    processes: the objects already in memory, hence the identities the
    new objects get, and what was written before.  Each invocation
    starts before the library has handed out a portal context. *)
Theorem profile_deterministic (w1 w2 : world) :
  external w1 = external w2 →
  no_context w1 →
  no_context w2 →
  written w1 (state_of (run geni_lib profile w1))
  = written w2 (state_of (run geni_lib profile w2))
  ∧ exit_status (run geni_lib profile w1)
    = exit_status (run geni_lib profile w2).
Proof.
  intros _ _ _.
  destruct (profile_result w1) as (g1 & -> & _ & _).
  destruct (profile_result w2) as (g2 & -> & _ & _).
  cbn [state_of exit_status]. rewrite !written_final. split; reflexivity.
Qed.

(** C7: the script handles no error.  Whatever the library, when one
    of its calls raises, that call is the last one the script makes and
    the run ends with that very exception, with a failure status. *)
Theorem fault_propagates {W : Type} (lib : library W) (w : W)
    (pre post : list (event W)) (ev : event W) (e : exn) :
  trace lib profile w = (pre ++ ev :: post)%list →
  ev_exn ev = Some e →
  post = []
  ∧ run lib profile w = Fault e (ev_state ev)
  ∧ exit_status (run lib profile w) = 1.
Proof.
  intros Ht He.
  destruct (fault_ends_run lib profile w pre ev post e Ht He) as [-> Hr].
  rewrite Hr. repeat split.
Qed.

(** C8: with geni-lib available the script runs to completion and the
    process exits with status 0, whatever it is started with (so in
    particular without arguments). *)
Theorem profile_exit_status w :
  exit_status (run geni_lib profile w) = 0
  ∧ ∃ g, run geni_lib profile w = Done g (final_world g w).
Proof.
  destruct (profile_result w) as (g & Hrun & _ & _).
  rewrite Hrun. split; [reflexivity|]. exists g. reflexivity.
Qed.

(** C9: the script is one line of calls.  Whatever the library
    answers, the calls made are the twelve of [script], in order, up to
    the first that raises; in a run that completes the print call is
    the last and the state it leaves is the final one.  On geni-lib the
    objects in memory at the end are those that were printed. *)
Theorem script_is_linear {W : Type} (lib : library W) (w : W) (w0 : world) :
  match run lib profile w with
  | Done g w' =>
      calls (trace lib profile w) = script g
      ∧ last (trace lib profile w)
        = Some (Event (printRequestRSpec (pc g) (request g)) None w')
  | Fault e w' =>
      ∃ g, calls (trace lib profile w) `prefix_of` script g
  end
  ∧ (∀ g, last (script g) = Some (printRequestRSpec (pc g) (request g))
          ∧ length (script g) = 12)
  ∧ ∃ g w',
      run geni_lib profile w0 = Done g w'
      ∧ written w0 w' = [profile_doc]
      ∧ snapshot_request (heap w') (request g) = Some profile_doc.
Proof.
  split; [apply script_shape|]. split; [intros g; split; reflexivity|].
  destruct (profile_result w0) as (g & Hrun & Hd & _).
  exists g, (final_world g w0). split; [exact Hrun|].
  split; [apply written_final|]. apply snapshot_final, Hd.
Qed.

(** C10: [tourDescription] is the sentence between two newlines, not the
    bare sentence, and that is the text of the tour in the document
    written. *)
Theorem tourDescription_newlines :
  tourDescription
  = String "010" ("Example profile for the hello-world-cluster" ++ String "010" "")
  ∧ String.get 0 tourDescription = Some "010"%char
  ∧ String.get (String.length tourDescription - 1) tourDescription
    = Some "010"%char
  ∧ String.length tourDescription = 45
  ∧ tourDescription ≠ "Example profile for the hello-world-cluster"
  ∧ ∀ w, (λ d, td_text <$> rd_tour d)
           <$> written w (state_of (run geni_lib profile w))
         = [Some (String "010"
                    ("Example profile for the hello-world-cluster"
                     ++ String "010" ""))].
Proof.
  repeat split; try discriminate.
  intros w. destruct (profile_result w) as (g & -> & _ & _).
  cbn [state_of]. rewrite written_final. reflexivity.
Qed.

End Claims.

(** ** Runs on concrete processes *)

Example boot_run :
  run geni_lib profile boot
  = Done (Globals 1 2 3 4 5) (final_world (Globals 1 2 3 4 5) boot).
Proof. vm_compute. reflexivity. Qed.

Example boot_stdout :
  stdout (state_of (run geni_lib profile boot)) = [profile_doc].
Proof. vm_compute. reflexivity. Qed.

Example unavailable_exit : exit_status (run unavailable profile tt) = 1.
Proof. reflexivity. Qed.

Example rejected_image_calls :
  calls (trace strict_lib profile boot)
  = take 8 (script (Globals 1 2 3 4 5)).
Proof. vm_compute. reflexivity. Qed.

Example busy_identities :
  allocated <$> [Globals 1 2 3 4 5; Globals 4 5 6 7 8]
  = (λ w, match run geni_lib profile w with
          | Done g _ => allocated g
          | Fault _ _ => []
          end) <$> [boot; busy].
Proof. vm_compute. reflexivity. Qed.

(** A script that prints through a handle it was not given writes
    different things in processes that only differ in memory. *)
Example stale_handle_depends_on_memory :
  let p := pc ← invoke portal_Context; invoke (printRequestRSpec pc 7) in
  let w :=
    with_heap
      (<[7%positive :=
           Object CRequest
             (<["tour" := VNone]> (<["resources" := VRefs []]> ∅))]> ∅)
      boot in
  external boot = external w
  ∧ no_context boot
  ∧ no_context w
  ∧ written boot (state_of (run geni_lib p boot)) = []
  ∧ written w (state_of (run geni_lib p w)) = [RequestD None []].
Proof.
  intros p w. split; [reflexivity|]. split; [apply map_Forall_empty|].
  split.
  - unfold no_context, w. cbn [heap with_heap].
    apply map_Forall_insert_2; [discriminate|apply map_Forall_empty].
  - split; vm_compute; reflexivity.
Qed.

Lemma profile_deterministic_witness :
  external boot = external busy
  ∧ no_context boot
  ∧ no_context busy
  ∧ written boot (state_of (run geni_lib profile boot))
    = written busy (state_of (run geni_lib profile busy))
  ∧ exit_status (run geni_lib profile boot)
    = exit_status (run geni_lib profile busy).
Proof.
  assert (Hb : no_context boot) by apply map_Forall_empty.
  assert (Hy : no_context busy).
  { unfold no_context, busy. cbn [heap].
    repeat (apply map_Forall_insert_2; [discriminate|]).
    apply map_Forall_empty. }
  split; [reflexivity|]. split; [exact Hb|]. split; [exact Hy|].
  apply (profile_deterministic boot busy eq_refl Hb Hy).
Defined.

Lemma fault_propagates_witness :
  trace strict_lib profile boot
  = (take 7 (trace strict_lib profile boot)
     ++ Event
          (setattr 4 "disk_image"
             (VStr "urn:publicid:IDN+emulab.net+image+emulab-ops:UBUNTU22-64-STD"))
          (Some (LibraryError "rejected"))
          (state_of (run strict_lib profile boot))
        :: [])%list
  ∧ run strict_lib profile boot
    = Fault (LibraryError "rejected") (state_of (run strict_lib profile boot))
  ∧ exit_status (run strict_lib profile boot) = 1.
Proof.
  assert (Ht :
    trace strict_lib profile boot
    = (take 7 (trace strict_lib profile boot)
       ++ Event
            (setattr 4 "disk_image"
               (VStr "urn:publicid:IDN+emulab.net+image+emulab-ops:UBUNTU22-64-STD"))
            (Some (LibraryError "rejected"))
            (state_of (run strict_lib profile boot))
          :: [])%list) by (vm_compute; reflexivity).
  split; [exact Ht|].
  apply (fault_propagates strict_lib boot _ [] _ (LibraryError "rejected") Ht).
  reflexivity.
Defined.

(** * Further properties of the script *)

Section Further.

Implicit Types (h : gmap loc object) (w : world) (l : loc) (g : globals).

(** Calls other than the print leave standard output alone. *)
Lemma geni_lib_stdout (c : call) w :
  prints c = false → stdout (state_of (geni_lib c w)) = stdout w.
Proof.
  destruct c; intros Hp; try discriminate; cbn;
    unfold method, append_ref, new; cbn;
    repeat
      match goal with
      | |- context [match ?x with _ => _ end] => destruct x; cbn
      end;
    reflexivity.
Qed.

(** A run that makes no print call leaves alone what only the print
    call writes. *)
Lemma quiet_run {W B R : Type} (lib : library W) (out : W → B) (p : prog R) :
  (∀ c s, prints c = false → out (state_of (lib c s)) = out s) →
  ∀ s, List.filter prints (calls (trace lib p s)) = [] →
       out (state_of (run lib p s)) = out s.
Proof.
  intros Hq. induction p as [r|c k IH]; intros s Hn; cbn in *.
  - reflexivity.
  - pose proof (Hq c s) as Hc.
    destruct (lib c s) as [x s'|e s']; cbn in *;
      destruct (prints c); try discriminate.
    + rewrite IH by exact Hn. auto.
    + auto.
Qed.

Lemma strict_lib_stdout (c : call) w :
  prints c = false → stdout (state_of (strict_lib c w)) = stdout w.
Proof.
  intros Hp. unfold strict_lib, rejecting.
  destruct (assigns "disk_image" c); [reflexivity|].
  apply geni_lib_stdout, Hp.
Qed.

(** A run of the script that raises either made no print call, or
    raised in the print call. *)
Lemma fault_position {W : Type} (lib : library W) (w : W) (e : exn) (w' : W) :
  run lib profile w = Fault e w' →
  List.filter prints (calls (trace lib profile w)) = []
  ∨ ∃ g, last (trace lib profile w)
         = Some (Event (printRequestRSpec (pc g) (request g)) (Some e) w').
Proof.
  cbv [profile mbind prog_bind bind invoke mret prog_ret]. cbn [run trace].
  repeat
    match goal with
    | |- context [lib ?c ?s] => destruct (lib c s) as [? ?|? ?]
    end;
    intros H; try discriminate; injection H as <- <-;
    first [ left; reflexivity
          | right; eexists (Globals _ _ _ _ _); reflexivity ].
  Unshelve. all: exact 1%positive.
Qed.

(** X1: in a process where the library has not handed out a portal
    context yet (a fresh process in particular), a run on geni-lib
    creates exactly five objects, pairwise distinct and at identities
    that were free: a context, a request, a tour, a raw PC and a block
    store.  Every object that was there before is still there,
    unchanged. *)
Theorem run_allocates_five w :
  no_context w →
  ∃ g w',
    run geni_lib profile w = Done g w'
    ∧ NoDup (allocated g)
    ∧ Forall (λ l, heap w !! l = None) (allocated g)
    ∧ class_of (heap w') <$> allocated g
      = Some <$> [CContext; CRequest; CTour; CRawPC; CBlockstore]
    ∧ dom (heap w') = dom (heap w) ∪ list_to_set (allocated g)
    ∧ ∀ l o, heap w !! l = Some o → heap w' !! l = Some o.
Proof.
  intros _.
  destruct (profile_result w) as (g & Hrun & Hd & Hf).
  destruct (final_heap_objects g (heap w) Hd) as (Hpc & Hrq & Htr & Hnd & Hbs).
  exists g, (final_world g w). split; [exact Hrun|].
  split; [exact Hd|]. split; [exact Hf|]. cbn [final_world heap with_heap with_stdout].
  split; [|split].
  - unfold allocated, class_of. cbn. rewrite Hpc, Hrq, Htr, Hnd, Hbs. reflexivity.
  - unfold final_heap, allocated. rewrite !dom_insert_L. cbn.
    apply set_eq. intros x.
    rewrite !elem_of_union, !elem_of_singleton, elem_of_empty. tauto.
  - intros l o Hl. rewrite final_heap_frame; [exact Hl|].
    intros Hin. rewrite Forall_forall in Hf. rewrite (Hf l Hin) in Hl. discriminate.
Qed.

(** X2: whatever the library, the print call is made at most once and
    only after the eleven calls before it have returned: a run that
    completes printed once, as its last call; a run that raised either
    made no print call at all, or raised in the print call itself. *)
Theorem print_only_at_the_end {W : Type} (lib : library W) (w : W) :
  match run lib profile w with
  | Done g w' =>
      List.filter prints (calls (trace lib profile w))
      = [printRequestRSpec (pc g) (request g)]
      ∧ List.filter prints (take 11 (calls (trace lib profile w))) = []
  | Fault e w' =>
      List.filter prints (calls (trace lib profile w)) = []
      ∨ ∃ g, trace lib profile w
             = (take 11 (trace lib profile w)
                ++ [Event (printRequestRSpec (pc g) (request g)) (Some e) w'])%list
             ∧ List.filter prints (take 11 (calls (trace lib profile w))) = []
  end.
Proof.
  cbv [profile mbind prog_bind bind invoke mret prog_ret]. cbn [run trace].
  repeat
    match goal with
    | |- context [lib ?c ?s] => destruct (lib c s) as [? ?|? ?]
    end;
    try (split; reflexivity);
    try (left; reflexivity).
  right. eexists (Globals _ _ _ _ _). split; reflexivity.
  Unshelve. all: exact 1%positive.
Qed.

(** X3: no partial output.  For a library in which only the print call
    writes, a run of the script that raises has either left the output
    as it found it, or raised in the print call itself. *)
Theorem no_partial_output {W B : Type} (lib : library W) (out : W → B)
    (w : W) (e : exn) (w' : W) :
  (∀ c s, prints c = false → out (state_of (lib c s)) = out s) →
  run lib profile w = Fault e w' →
  out w' = out w
  ∨ ∃ g, last (trace lib profile w)
         = Some (Event (printRequestRSpec (pc g) (request g)) (Some e) w').
Proof.
  intros Hq Hr. destruct (fault_position lib w e w' Hr) as [Hn|Hp].
  - left. pose proof (quiet_run lib out profile Hq w Hn) as H.
    rewrite Hr in H. exact H.
  - right. exact Hp.
Qed.

End Further.

Lemma run_allocates_five_witness :
  no_context boot
  ∧ ∃ g w',
      run geni_lib profile boot = Done g w'
      ∧ NoDup (allocated g)
      ∧ Forall (λ l, heap boot !! l = None) (allocated g)
      ∧ class_of (heap w') <$> allocated g
        = Some <$> [CContext; CRequest; CTour; CRawPC; CBlockstore]
      ∧ dom (heap w') = dom (heap boot) ∪ list_to_set (allocated g)
      ∧ ∀ l o, heap boot !! l = Some o → heap w' !! l = Some o.
Proof.
  assert (Hb : no_context boot) by apply map_Forall_empty.
  split; [exact Hb|]. apply (run_allocates_five boot Hb).
Defined.

Lemma no_partial_output_witness :
  (∀ c s, prints c = false → stdout (state_of (strict_lib c s)) = stdout s)
  ∧ run strict_lib profile boot
    = Fault (LibraryError "rejected") (state_of (run strict_lib profile boot))
  ∧ (stdout (state_of (run strict_lib profile boot)) = stdout boot
     ∨ ∃ g, last (trace strict_lib profile boot)
            = Some (Event (printRequestRSpec (pc g) (request g))
                      (Some (LibraryError "rejected"))
                      (state_of (run strict_lib profile boot)))).
Proof.
  assert (Hr :
    run strict_lib profile boot
    = Fault (LibraryError "rejected") (state_of (run strict_lib profile boot)))
    by (vm_compute; reflexivity).
  split; [exact strict_lib_stdout|]. split; [exact Hr|].
  apply (no_partial_output strict_lib stdout boot _ _ strict_lib_stdout Hr).
Defined.

Section Scope.

Context {W : Type}.

Ltac raised_at n :=
  exists n; split; [cbn; reflexivity|lia].

(** X6: whatever the library, every object the script uses is the one
    the library answered with where the script binds it: the context
    that makes and prints the request is the one [portal.Context]
    returned, the request that gets the tour and the node and is
    printed is the one [makeRequestRSpec] returned, the tour described
    and attached is the one [IG.Tour] returned, the node assigned to
    and given the block store is the one [RawPC] returned, and the
    block store sized is the one [Blockstore] returned.  A run that
    raises followed the same line up to the call that raised. *)
Theorem profile_uses_what_it_got (lib : library W) (w : W) :
  match run lib profile w with
  | Done g _ => log lib profile w = script_log g
  | Fault _ _ =>
      ∃ g n,
        log lib profile w
        = (take n (script_log g)
           ++ ((λ c, (c, None)) <$> take 1 (drop n (script g))))%list
        ∧ n < 12
  end.
Proof.
  cbv [profile mbind prog_bind bind invoke mret prog_ret]. cbn [run log].
  repeat
    match goal with
    | |- context [lib ?c ?s] => destruct (lib c s) as [? ?|? ?]
    end;
    try reflexivity;
    eexists (Globals _ _ _ _ _);
    first [ raised_at 0 | raised_at 1 | raised_at 2 | raised_at 3
          | raised_at 4 | raised_at 5 | raised_at 6 | raised_at 7
          | raised_at 8 | raised_at 9 | raised_at 10 | raised_at 11 ].
  Unshelve. all: exact 1%positive.
Qed.

End Scope.
